(** * Pong: the application loop of [main.py]

    A shallow embedding of [main()]: the three-state Menu / Play / GameOver
    machine, the SPACE rising-edge detector, the menu selection of the
    player count and the window-close handling.  One iteration of
    [while running:] is the function [frame]; the loop itself is [loop]
    (the frames executed, in order) and [run] (the variables when the loop
    stops or the input runs out).

    The class [pong.game.Game] and the helpers of [pong.input] and
    [pong.assets] are imported by [main.py] but are not part of it, so the
    game object is a parameter of the development: a type with a constructor,
    an [update] and the scores of its two bats. *)

From Stdlib Require Import ZArith List Bool String Lia.
Import ListNotations.
Open Scope Z_scope.

(** ** Data of [main.py] *)

(** [class State(Enum)]. *)
Inductive State : Type := MENU | PLAY | GAME_OVER.

(** The keys [main] reads from [pygame.key.get_pressed()]; every other key is
    [K_OTHER]. *)
Inductive Key : Type := K_SPACE | K_UP | K_DOWN | K_OTHER (code : Z).

(** [ev.type] of an event returned by [pygame.event.get()]. *)
Inductive EventType : Type := QUIT | OTHER_EVENT (code : Z).

(** The two control functions imported from [pong.input]. *)
Inductive Control : Type := p1_controls | p2_controls.

(** The pair [controls]; [None] is Python's [None]. *)
Definition Controls : Type := (option Control * option Control)%type.

(** A bat as far as [main] looks at it: [bat.score]. *)
Record Bat : Type := mkBat { score : Z }.

Definition is_quit (ev : EventType) : bool :=
  match ev with QUIT => true | OTHER_EVENT _ => false end.

(** [sys.exit(arg)]: the exit status of the process; no argument is status 0. *)
Definition sys_exit (arg : option Z) : Z :=
  match arg with None => 0 | Some c => c end.

(** ** A small scoreboard game, used to run the loop on concrete inputs *)

(** Modelled from the spec: [pong.game.Game] is not in [main.py].  This
    instance keeps what the spec says of the scores (both start at 0, a score
    grows by one per ball exit, at most one per tick) and leaves the physics
    out: what happens to the ball in a tick is read from the outside world. *)
Inductive Rally : Type := NoPoint | PointLeft | PointRight.

Record Scoreboard : Type := mkScoreboard
  { sb_left : Z; sb_right : Z; sb_ticks : Z; sb_controls : Controls }.

Definition scoreboard_init (_ : Rally) (c : Controls) : Scoreboard :=
  mkScoreboard 0 0 0 c.

Definition scoreboard_update (r : Rally) (g : Scoreboard) : Scoreboard :=
  match r with
  | NoPoint => mkScoreboard (sb_left g) (sb_right g) (sb_ticks g + 1) (sb_controls g)
  | PointLeft => mkScoreboard (sb_left g + 1) (sb_right g) (sb_ticks g + 1) (sb_controls g)
  | PointRight => mkScoreboard (sb_left g) (sb_right g + 1) (sb_ticks g + 1) (sb_controls g)
  end.

Definition scoreboard_bats (g : Scoreboard) : Bat * Bat :=
  (mkBat (sb_left g), mkBat (sb_right g)).

Definition only_key (k : Key) : Key -> bool :=
  fun k' =>
    match k, k' with
    | K_SPACE, K_SPACE | K_UP, K_UP | K_DOWN, K_DOWN => true
    | _, _ => false
    end.

Definition no_key : Key -> bool := fun _ => false.

Section Loop.

(** ** The game object, as [main] uses it *)

(** [Env] is whatever the game reads from outside during a frame (the live
    key state its control functions poll, its random numbers). *)
Variables Game Env : Type.

(** [Game(controls, sfx)]; [sfx] is the one table loaded at start-up. *)
Variable Game_init : Env -> Controls -> Game.

(** [game.update()]: the object after the call. *)
Variable Game_update : Env -> Game -> Game.

(** Modelled from the spec: [game.bats] is declared in [pong.game]; the spec
    says a Game owns exactly two paddles, so it is a pair here. *)
Variable Game_bats : Game -> Bat * Bat.

(** ** What one frame reads and does *)

(** What the program observes in one frame: the events of
    [pygame.event.get()], the key state of [pygame.key.get_pressed()], and
    the world the game sees. *)
Record Input : Type := mkInput
  { events : list EventType; keys : Key -> bool; world : Env }.

(** The calls a frame makes, in order.  Modelled from the spec:
    [game.draw(screen)] is pure rendering and leaves the game as it is, so
    it appears only here. *)
Inductive Effect : Type :=
| SfxPlay (cue : string)        (* sfx[cue][0].play() *)
| GameNew (c : Controls)        (* Game(controls, sfx) *)
| GameUpdate (g : Game)         (* game.update(), g the object before *)
| GameDraw (g : Game)           (* game.draw(screen) *)
| DrawMenu (n : Z)              (* the menu screen, with its player count *)
| DrawGameOver                  (* the game-over screen *)
| DisplayFlip                   (* pygame.display.flip() *)
| ClockTick.                    (* clock.tick(FPS) *)

(** The local variables of [main] that live across iterations. *)
Record Vars : Type := mkVars
  { state : State;
    num_players : Z;
    controls : Controls;
    game : Game;
    space_down : bool;
    running : bool }.

Definition is_update (e : Effect) : bool :=
  match e with GameUpdate _ => true | _ => false end.

Definition is_draw (e : Effect) : bool :=
  match e with GameDraw _ => true | _ => false end.

Definition is_sfx (e : Effect) : bool :=
  match e with SfxPlay _ => true | _ => false end.

Definition count_updates (l : list Effect) : nat :=
  List.length (filter is_update l).

(** ** One iteration of [while running:] *)

(** [for ev in pygame.event.get(): if ev.type == pygame.QUIT: running = False] *)
Definition poll_events (evs : list EventType) (r : bool) : bool :=
  fold_left (fun r ev => if is_quit ev then false else r) evs r.

Definition has_quit (i : Input) : bool := existsb is_quit (events i).

(** [space_pressed = space_now and not space_down] *)
Definition space_pressed (i : Input) (v : Vars) : bool :=
  keys i K_SPACE && negb (space_down v).

(** The [if keys[K_UP] ... elif keys[K_DOWN] ...] of the menu: the new
    player count and the cue played. *)
Definition menu_select (ks : Key -> bool) (n : Z) : Z * list Effect :=
  if ks K_UP && (n =? 2) then (1, [SfxPlay "up"])
  else if ks K_DOWN && (n =? 1) then (2, [SfxPlay "down"])
  else (n, []).

(** [max(bat.score for bat in game.bats)] *)
Definition max_score (g : Game) : Z :=
  Z.max (score (fst (Game_bats g))) (score (snd (Game_bats g))).

Definition menu_branch (i : Input) (pressed : bool) (v : Vars)
  : Vars * list Effect :=
  let n := fst (menu_select (keys i) (num_players v)) in
  let cue := snd (menu_select (keys i) (num_players v)) in
  if pressed then
    let c := (Some p1_controls, if n =? 2 then Some p2_controls else None) in
    (mkVars PLAY n c (Game_init (world i) c) (space_down v) (running v),
     cue ++ [GameNew c; DrawMenu n])
  else
    (mkVars MENU n (controls v) (Game_update (world i) (game v))
            (space_down v) (running v),
     cue ++ [GameUpdate (game v); DrawMenu n]).

Definition play_branch (i : Input) (v : Vars) : Vars * list Effect :=
  let g := Game_update (world i) (game v) in
  (mkVars (if max_score g >? 9 then GAME_OVER else PLAY)
          (num_players v) (controls v) g (space_down v) (running v),
   [GameUpdate (game v); GameDraw g]).

Definition game_over_branch (i : Input) (pressed : bool) (v : Vars)
  : Vars * list Effect :=
  if pressed then
    (mkVars MENU 1 (None, None) (Game_init (world i) (None, None))
            (space_down v) (running v),
     [GameNew (None, None); DrawGameOver])
  else (v, [DrawGameOver]).

(** The body of the loop, from the event handling to [clock.tick(FPS)]. *)
Definition frame (i : Input) (v : Vars) : Vars * list Effect :=
  let pressed := space_pressed i v in
  let v1 := mkVars (state v) (num_players v) (controls v) (game v)
                   (keys i K_SPACE) (poll_events (events i) (running v)) in
  let r := match state v1 with
           | MENU => menu_branch i pressed v1
           | PLAY => play_branch i v1
           | GAME_OVER => game_over_branch i pressed v1
           end in
  (fst r, snd r ++ [DisplayFlip; ClockTick]).

Arguments frame : simpl never.

(** ** The loop *)

(** One executed iteration: what it read, the variables before and after,
    and the calls it made. *)
Record FrameRec : Type := mkFrameRec
  { fr_input : Input; fr_pre : Vars; fr_post : Vars; fr_effects : list Effect }.

(** The iterations [while running:] executes on the inputs [ins], starting
    from the variables [v]: the condition is tested before each one. *)
Fixpoint loop (ins : list Input) (v : Vars) : list FrameRec :=
  match ins with
  | [] => []
  | i :: rest =>
      if running v then
        mkFrameRec i v (fst (frame i v)) (snd (frame i v))
          :: loop rest (fst (frame i v))
      else []
  end.

(** The variables when the loop stops, or when the inputs run out. *)
Fixpoint run (ins : list Input) (v : Vars) : Vars :=
  match ins with
  | [] => v
  | i :: rest => if running v then run rest (fst (frame i v)) else v
  end.

(** The variables when the loop is entered (lines 40-50). *)
Definition init (w0 : Env) : Vars :=
  mkVars MENU 1 (None, None) (Game_init w0 (None, None)) false true.

Inductive Outcome : Type :=
| StillRunning (v : Vars)   (* the inputs ran out with [running] still true *)
| Exited (code : Z).        (* pygame.quit(); sys.exit() *)

(** What follows the loop: [pygame.quit(); sys.exit()] once [running] is
    false. *)
Definition finish (v : Vars) : Outcome :=
  if running v then StillRunning v else Exited (sys_exit None).

(** [main()] on the frames [ins]. *)
Definition main (w0 : Env) (ins : list Input) : Outcome :=
  finish (run ins (init w0)).

(** Whether SPACE was down in the frame before the [n]-th executed one;
    [b0] is [space_down] when the loop is entered. *)
Definition prev_space (b0 : bool) (ins : list Input) (n : nat) : bool :=
  match n with
  | O => b0
  | S m => nth m (map (fun i => keys i K_SPACE) ins) false
  end.

(** The SPACE flag of every executed frame, in order. *)
Definition space_flags (ins : list Input) (v : Vars) : list bool :=
  map (fun r => space_pressed (fr_input r) (fr_pre r)) (loop ins v).

(** ** Vocabulary for the properties of the loop *)

Definition is_new (e : Effect) : bool :=
  match e with GameNew _ => true | _ => false end.

(** The three calls that paint a screen. *)
Definition is_render (e : Effect) : bool :=
  match e with GameDraw _ | DrawMenu _ | DrawGameOver => true | _ => false end.

Definition is_flip (e : Effect) : bool :=
  match e with DisplayFlip => true | _ => false end.

Definition is_tick (e : Effect) : bool :=
  match e with ClockTick => true | _ => false end.

(** The arrows of the state machine: a state and what one frame can leave
    behind. *)
Definition successor (s s' : State) : bool :=
  match s, s' with
  | MENU, MENU | MENU, PLAY => true
  | PLAY, PLAY | PLAY, GAME_OVER => true
  | GAME_OVER, GAME_OVER | GAME_OVER, MENU => true
  | _, _ => false
  end.

(** The input [i] with the event queue replaced by [evs]. *)
Definition with_events (evs : list EventType) (i : Input) : Input :=
  mkInput evs (keys i) (world i).

(** [g] was constructed as [Game(c, sfx)] and has only been updated since. *)
Inductive built_from (c : Controls) : Game -> Prop :=
| built_new (w : Env) : built_from c (Game_init w c)
| built_update (w : Env) (g : Game) :
    built_from c g -> built_from c (Game_update w g).

(** What the variables [state], [controls], [num_players] and [game] have in
    common at the top of every iteration. *)
Definition controls_inv (v : Vars) : Prop :=
  built_from (controls v) (game v)
  /\ (state v = MENU -> controls v = (None, None))
  /\ (state v <> MENU ->
      controls v =
        (Some p1_controls, if num_players v =? 2 then Some p2_controls else None)).

(** [Game_bats] seen through [max_score], per state: below the threshold
    while playing, exactly ten on the game-over screen. *)
Definition score_inv (v : Vars) : Prop :=
  (state v = PLAY -> max_score (game v) <= 9)
  /\ (state v = GAME_OVER -> max_score (game v) = 10).

(** ** Basic facts about one frame *)

Lemma poll_events_false (evs : list EventType) : poll_events evs false = false.
Proof.
  unfold poll_events. induction evs as [|ev evs IH]; simpl; trivial.
  destruct (is_quit ev); exact IH.
Qed.

Lemma poll_events_spec (evs : list EventType) (r : bool) :
  poll_events evs r = r && negb (existsb is_quit evs).
Proof.
  revert r. induction evs as [|ev evs IH]; intro r; simpl.
  - now rewrite andb_true_r.
  - unfold poll_events in *. simpl. destruct (is_quit ev); simpl.
    + fold (poll_events evs false). rewrite poll_events_false.
      now rewrite andb_false_r.
    + apply IH.
Qed.

Lemma frame_running (i : Input) (v : Vars) :
  running (fst (frame i v)) = running v && negb (has_quit i).
Proof.
  unfold frame, has_quit. simpl.
  rewrite <- poll_events_spec.
  destruct (state v); simpl;
    unfold menu_branch, play_branch, game_over_branch;
    destruct (space_pressed i v); reflexivity.
Qed.

Lemma frame_space_down (i : Input) (v : Vars) :
  space_down (fst (frame i v)) = keys i K_SPACE.
Proof.
  unfold frame. simpl.
  destruct (state v); simpl;
    unfold menu_branch, play_branch, game_over_branch;
    destruct (space_pressed i v); reflexivity.
Qed.

(** C1: a frame that starts in Play calls [game.update()] once, draws the
    updated game, and then tests the scores of the updated game: the state
    becomes GameOver exactly when the larger of the two scores is greater
    than 9, and stays Play otherwise. *)
Theorem play_frame_game_over (i : Input) (v : Vars) :
  state v = PLAY ->
  let g' := Game_update (world i) (game v) in
  let v' := fst (frame i v) in
  game v' = g'
  /\ snd (frame i v) = [GameUpdate (game v); GameDraw g'; DisplayFlip; ClockTick]
  /\ count_updates (snd (frame i v)) = 1%nat
  /\ (state v' = GAME_OVER <->
      Z.max (score (fst (Game_bats g'))) (score (snd (Game_bats g'))) > 9)
  /\ (~ Z.max (score (fst (Game_bats g'))) (score (snd (Game_bats g'))) > 9 ->
      state v' = PLAY).
Proof.
  intros Hst g' v'. subst g' v'. unfold frame. simpl. rewrite Hst. simpl.
  fold (max_score (Game_update (world i) (game v))).
  repeat split; try reflexivity.
  - destruct (Z.gtb_spec (max_score (Game_update (world i) (game v))) 9);
      [lia | discriminate].
  - intro H. apply Z.gt_lt in H. apply Z.gtb_lt in H. now rewrite H.
  - intro H.
    destruct (Z.gtb_spec (max_score (Game_update (world i) (game v))) 9);
      [lia | reflexivity].
Qed.

(** ** Facts about the loop *)

Lemma loop_nth (ins : list Input) :
  forall (v : Vars) (n : nat) (r : FrameRec),
    nth_error (loop ins v) n = Some r ->
    nth_error ins n = Some (fr_input r)
    /\ fr_post r = fst (frame (fr_input r) (fr_pre r))
    /\ fr_effects r = snd (frame (fr_input r) (fr_pre r))
    /\ running (fr_pre r) = true
    /\ space_down (fr_pre r) = prev_space (space_down v) ins n.
Proof.
  induction ins as [|i rest IH]; intros v n r H.
  - destruct n; discriminate.
  - cbn [loop] in H. destruct (running v) eqn:Hrun.
    2:{ destruct n; discriminate. }
    destruct n as [|m]; cbn [nth_error] in H.
    + injection H as <-. cbn. repeat split; assumption || reflexivity.
    + destruct (IH _ _ _ H) as (Hin & Hpost & Heff & Hr & Hsd).
      cbn [nth_error]. repeat split; trivial.
      rewrite Hsd, frame_space_down. destruct m; reflexivity.
Qed.

Lemma loop_app_no_quit (pre : list Input) :
  forall v : Vars,
    running v = true ->
    forallb (fun i => negb (has_quit i)) pre = true ->
    running (run pre v) = true
    /\ forall rest : list Input,
        run (pre ++ rest) v = run rest (run pre v)
        /\ map fr_input (loop (pre ++ rest) v)
           = pre ++ map fr_input (loop rest (run pre v)).
Proof.
  induction pre as [|i pre IH]; intros v Hrun Hnq.
  - cbn [run app]. auto.
  - cbn [forallb] in Hnq. apply andb_true_iff in Hnq as [Hi Hpre].
    assert (Hrun' : running (fst (frame i v)) = true).
    { rewrite frame_running, Hrun, Hi. reflexivity. }
    destruct (IH _ Hrun' Hpre) as [Hr Hrest].
    cbn [app run loop]. rewrite Hrun. split; [exact Hr|].
    intro rest. destruct (Hrest rest) as [H1 H2].
    cbn [map fr_input]. rewrite H2. auto.
Qed.

Lemma run_stopped (ins : list Input) (v : Vars) :
  running v = false -> run ins v = v /\ loop ins v = [].
Proof. intro H. destruct ins; simpl; rewrite ?H; auto. Qed.

(** C2: in every frame the loop executes, the SPACE flag is true exactly
    when SPACE is down in that frame and was not down in the frame before
    (not down before the first frame); on five frames with SPACE down,
    down, down, up, down, none of the first four closing the window, the
    flags are true, false, false, false, true. *)
Theorem space_rising_edge (w0 : Env) (ins : list Input) :
  (forall (n : nat) (r : FrameRec),
      nth_error (loop ins (init w0)) n = Some r ->
      nth_error ins n = Some (fr_input r)
      /\ (space_pressed (fr_input r) (fr_pre r) = true <->
          keys (fr_input r) K_SPACE = true /\ prev_space false ins n = false))
  /\ (map (fun i => keys i K_SPACE) ins = [true; true; true; false; true] ->
      forallb (fun i => negb (has_quit i)) (removelast ins) = true ->
      space_flags ins (init w0) = [true; false; false; false; true]).
Proof.
  split.
  - intros n r H. apply loop_nth in H as (Hin & _ & _ & _ & Hsd).
    split; trivial. unfold space_pressed. rewrite Hsd. simpl.
    rewrite andb_true_iff, negb_true_iff. tauto.
  - intros Hk Hq.
    destruct ins as [|i1 [|i2 [|i3 [|i4 [|i5 [|i6 tl]]]]]]; try discriminate.
    injection Hk as K1 K2 K3 K4 K5.
    simpl in Hq. rewrite !andb_true_iff, !negb_true_iff in Hq.
    destruct Hq as (Q1 & Q2 & Q3 & Q4 & _).
    unfold space_flags, init at 1. cbn [loop running].
    repeat (rewrite !frame_running, ?Q1, ?Q2, ?Q3, ?Q4; cbn [loop running andb negb]).
    cbn [map fr_input fr_pre]. unfold space_pressed.
    rewrite !frame_space_down. cbn [space_down init].
    rewrite K1, K2, K3, K4, K5. reflexivity.
Qed.

(** C5: in a Menu frame, UP with a count of 2 sets the count to 1 and plays
    the "up" cue; failing that, DOWN with a count of 1 sets the count to 2
    and plays the "down" cue; in every other case the count is unchanged and
    no cue is played. *)
Theorem menu_player_count (i : Input) (v : Vars) :
  state v = MENU ->
  let v' := fst (frame i v) in
  let cues := filter is_sfx (snd (frame i v)) in
  (keys i K_UP = true /\ num_players v = 2 ->
   num_players v' = 1 /\ cues = [SfxPlay "up"])
  /\ (~ (keys i K_UP = true /\ num_players v = 2) ->
      keys i K_DOWN = true /\ num_players v = 1 ->
      num_players v' = 2 /\ cues = [SfxPlay "down"])
  /\ (~ (keys i K_UP = true /\ num_players v = 2) ->
      ~ (keys i K_DOWN = true /\ num_players v = 1) ->
      num_players v' = num_players v /\ cues = []).
Proof.
  intros Hst v' cues. subst v' cues.
  unfold frame, menu_branch, menu_select. simpl. rewrite Hst. simpl.
  destruct (keys i K_UP) eqn:Hup, (Z.eqb_spec (num_players v) 2) as [E2|N2],
           (keys i K_DOWN) eqn:Hdn, (Z.eqb_spec (num_players v) 1) as [E1|N1],
           (space_pressed i v); simpl;
    repeat split; intros; try reflexivity; try lia; try tauto;
    try (exfalso; intuition congruence).
Qed.

(** C3: a Menu frame ends in Play exactly when SPACE has a rising edge in
    it, so never while SPACE is held from the frame before; on that frame
    the controls are player 1's function paired with player 2's function
    when the selected count (after this frame's UP/DOWN handling) is 2 and
    with None otherwise, and the game is a new one built from them. *)
Theorem menu_to_play (i : Input) (v : Vars) :
  state v = MENU ->
  let v' := fst (frame i v) in
  (state v' = PLAY <-> keys i K_SPACE = true /\ space_down v = false)
  /\ (space_down v = true -> state v' = MENU)
  /\ (space_pressed i v = true ->
      controls v' =
        (Some p1_controls, if num_players v' =? 2 then Some p2_controls else None)
      /\ (snd (controls v') = Some p2_controls <-> num_players v' = 2)
      /\ (snd (controls v') = None <-> num_players v' <> 2)
      /\ game v' = Game_init (world i) (controls v')
      /\ filter (fun e => match e with GameNew _ => true | _ => false end)
           (snd (frame i v)) = [GameNew (controls v')]).
Proof.
  intros Hst v'. subst v'.
  unfold frame, menu_branch. simpl. rewrite Hst. simpl.
  unfold space_pressed.
  destruct (keys i K_SPACE) eqn:Hsp, (space_down v) eqn:Hsd; simpl;
    (split; [ split; [ discriminate || auto | intros [? ?]; discriminate || auto ] | ]);
    (split; [ discriminate || auto | ]); try discriminate.
  intros _.
  set (n := fst (menu_select (keys i) (num_players v))).
  split; [reflexivity|].
  destruct (Z.eqb_spec n 2) as [E|N]; simpl;
    (split; [ split; congruence | ]);
    (split; [ split; congruence | ]);
    (split; [ reflexivity | ]);
    unfold menu_select;
    destruct (keys i K_UP && (num_players v =? 2));
    [ | destruct (keys i K_DOWN && (num_players v =? 1)) | | destruct (keys i K_DOWN && (num_players v =? 1)) ];
    reflexivity.
Qed.

(** C6: a Menu frame without a SPACE rising edge stays in Menu and calls
    [game.update()] exactly once, on the background game. *)
Theorem menu_background_update (i : Input) (v : Vars) :
  state v = MENU ->
  space_pressed i v = false ->
  let v' := fst (frame i v) in
  state v' = MENU
  /\ game v' = Game_update (world i) (game v)
  /\ count_updates (snd (frame i v)) = 1%nat
  /\ filter is_update (snd (frame i v)) = [GameUpdate (game v)].
Proof.
  intros Hst Hsp v'. subst v'.
  unfold frame, menu_branch, count_updates. simpl. rewrite Hst, Hsp. simpl.
  unfold menu_select.
  destruct (keys i K_UP && (num_players v =? 2));
    [ | destruct (keys i K_DOWN && (num_players v =? 1)) ];
    simpl; auto.
Qed.

(** C4: a GameOver frame ends in Menu exactly when SPACE has a rising edge
    in it; then the player count is 1, the controls are (None, None) and the
    game is a new one built from them, whose two scores are 0 as for every
    new game; without a rising edge the frame leaves the state, the count,
    the controls and the game as they were. *)
Theorem game_over_to_menu (i : Input) (v : Vars) :
  (forall (w : Env) (c : Controls), Game_bats (Game_init w c) = (mkBat 0, mkBat 0)) ->
  state v = GAME_OVER ->
  let v' := fst (frame i v) in
  (state v' = MENU <-> keys i K_SPACE = true /\ space_down v = false)
  /\ (space_pressed i v = true ->
      num_players v' = 1
      /\ controls v' = (None, None)
      /\ game v' = Game_init (world i) (None, None)
      /\ score (fst (Game_bats (game v'))) = 0
      /\ score (snd (Game_bats (game v'))) = 0
      /\ filter (fun e => match e with GameNew _ => true | _ => false end)
           (snd (frame i v)) = [GameNew (None, None)])
  /\ (space_pressed i v = false ->
      state v' = GAME_OVER
      /\ num_players v' = num_players v
      /\ controls v' = controls v
      /\ game v' = game v).
Proof.
  intros Hfresh Hst v'. subst v'.
  unfold frame, game_over_branch. simpl. rewrite Hst. simpl.
  unfold space_pressed.
  destruct (keys i K_SPACE) eqn:Hsp, (space_down v) eqn:Hsd; simpl;
    rewrite ?Hfresh; simpl;
    (split; [ split; [ discriminate || auto | intros [? ?]; discriminate || auto ] | ]);
    split; intro; try discriminate; repeat split; reflexivity || assumption.
Qed.

(** C7: whatever the state, once a frame's event poll contains the
    window-close event the loop executes that frame and no other: the
    condition is tested once per iteration, the frames executed are those
    before the event and the one that polls it, later inputs are never
    read, and the process exits with status 0. *)
Theorem window_close_ends_loop (v : Vars) (pre post : list Input) (q : Input) :
  running v = true ->
  forallb (fun i => negb (has_quit i)) pre = true ->
  has_quit q = true ->
  let ins := pre ++ q :: post in
  map fr_input (loop ins v) = pre ++ [q]
  /\ List.length (loop ins v) = (List.length pre + 1)%nat
  /\ running (run ins v) = false
  /\ run ins v = run (pre ++ [q]) v
  /\ finish (run ins v) = Exited 0
  /\ (forall w0 : Env, v = init w0 -> main w0 ins = Exited 0).
Proof.
  intros Hrun Hpre Hq ins. subst ins.
  destruct (loop_app_no_quit pre v Hrun Hpre) as [Hv1 Happ].
  set (v1 := run pre v) in *.
  assert (Hstop : running (fst (frame q v1)) = false).
  { rewrite frame_running, Hv1, Hq. reflexivity. }
  destruct (run_stopped post _ Hstop) as [Hrp Hlp].
  destruct (Happ (q :: post)) as [Hr Hl].
  destruct (Happ [q]) as [Hr' _].
  assert (Hmap : map fr_input (loop (pre ++ q :: post) v) = pre ++ [q]).
  { rewrite Hl. cbn [loop]. rewrite Hv1, Hlp. reflexivity. }
  assert (Hfin : run (pre ++ q :: post) v = fst (frame q v1)).
  { rewrite Hr. cbn [run]. rewrite Hv1. exact Hrp. }
  split; [|split; [|split; [|split; [|split]]]].
  - exact Hmap.
  - rewrite <- (length_map fr_input), Hmap, length_app. reflexivity.
  - rewrite Hfin. exact Hstop.
  - rewrite Hfin, Hr'. cbn [run]. rewrite Hv1. reflexivity.
  - unfold finish. rewrite Hfin, Hstop. reflexivity.
  - intros w0 Hv. unfold main, finish. rewrite <- Hv, Hfin, Hstop. reflexivity.
Qed.

(** C8: the player count is 1 when the loop is entered, a frame leaves it
    unchanged or sets it to 1 or 2, and so it is 1 or 2 before and after
    every frame the loop executes and when the loop stops. *)
Theorem num_players_one_or_two (w0 : Env) (ins : list Input) :
  num_players (init w0) = 1
  /\ (forall (i : Input) (v : Vars),
         num_players (fst (frame i v)) = num_players v
         \/ num_players (fst (frame i v)) = 1
         \/ num_players (fst (frame i v)) = 2)
  /\ Forall (fun r => (num_players (fr_pre r) = 1 \/ num_players (fr_pre r) = 2)
                      /\ (num_players (fr_post r) = 1 \/ num_players (fr_post r) = 2))
       (loop ins (init w0))
  /\ (num_players (run ins (init w0)) = 1 \/ num_players (run ins (init w0)) = 2).
Proof.
  assert (Hstep : forall (i : Input) (v : Vars),
             num_players (fst (frame i v)) = num_players v
             \/ num_players (fst (frame i v)) = 1
             \/ num_players (fst (frame i v)) = 2).
  { intros i v. unfold frame, menu_branch, play_branch, game_over_branch, menu_select.
    simpl. destruct (state v); simpl;
      destruct (space_pressed i v); simpl; auto;
      destruct (keys i K_UP && (num_players v =? 2)); simpl; auto;
      destruct (keys i K_DOWN && (num_players v =? 1)); simpl; auto. }
  assert (Hinv : forall (i : Input) (v : Vars),
             num_players v = 1 \/ num_players v = 2 ->
             num_players (fst (frame i v)) = 1 \/ num_players (fst (frame i v)) = 2).
  { intros i v Hv. destruct (Hstep i v) as [H|[H|H]]; rewrite H; auto. }
  assert (Hloop : forall (l : list Input) (v : Vars),
             num_players v = 1 \/ num_players v = 2 ->
             Forall (fun r => (num_players (fr_pre r) = 1 \/ num_players (fr_pre r) = 2)
                              /\ (num_players (fr_post r) = 1 \/ num_players (fr_post r) = 2))
               (loop l v)
             /\ (num_players (run l v) = 1 \/ num_players (run l v) = 2)).
  { induction l as [|i l IH]; intros v Hv; cbn [loop run].
    - split; [constructor | exact Hv].
    - destruct (running v); [ | split; [constructor | exact Hv] ].
      destruct (IH _ (Hinv i v Hv)) as [HF HR].
      split; [ constructor; [ cbn; auto | exact HF ] | exact HR ]. }
  assert (H0 : num_players (init w0) = 1) by reflexivity.
  destruct (Hloop ins (init w0) (or_introl H0)) as [HF HR].
  auto.
Qed.

(** C9: on the frame where Menu goes to Play the new game is neither
    updated nor drawn and the menu screen is what is rendered; the frame
    after it, when the loop runs one, starts with [game.update()] on the new
    game followed by [game.draw()].  On the frame where GameOver goes to
    Menu the game-over screen is what is rendered. *)
Theorem transition_frame_rendering (i i' : Input) (v : Vars) :
  space_pressed i v = true ->
  let v' := fst (frame i v) in
  (state v = MENU ->
   state v' = PLAY
   /\ game v' = Game_init (world i) (controls v')
   /\ snd (frame i v) =
        snd (menu_select (keys i) (num_players v))
          ++ [GameNew (controls v'); DrawMenu (num_players v'); DisplayFlip; ClockTick]
   /\ filter is_update (snd (frame i v)) = []
   /\ filter is_draw (snd (frame i v)) = []
   /\ snd (frame i' v') =
        [GameUpdate (game v'); GameDraw (Game_update (world i') (game v'));
         DisplayFlip; ClockTick]
   /\ (running v = true -> has_quit i = false ->
       forall rest : list Input,
         loop (i :: i' :: rest) v =
           mkFrameRec i v v' (snd (frame i v))
             :: mkFrameRec i' v' (fst (frame i' v'))
                  [GameUpdate (game v'); GameDraw (Game_update (world i') (game v'));
                   DisplayFlip; ClockTick]
             :: loop rest (fst (frame i' v'))))
  /\ (state v = GAME_OVER ->
      state v' = MENU
      /\ snd (frame i v) = [GameNew (None, None); DrawGameOver; DisplayFlip; ClockTick]).
Proof.
  intros Hsp v'.
  split; intro Hst.
  - assert (Hplay : state v' = PLAY).
    { subst v'. unfold frame, menu_branch. simpl. rewrite Hst, Hsp. reflexivity. }
    assert (Hnext : snd (frame i' v') =
              [GameUpdate (game v'); GameDraw (Game_update (world i') (game v'));
               DisplayFlip; ClockTick]).
    { unfold frame at 1. cbn [state]. rewrite Hplay. reflexivity. }
    split; [exact Hplay|].
    split; [ subst v'; unfold frame, menu_branch; simpl; rewrite Hst, Hsp; reflexivity | ].
    split; [ subst v'; unfold frame, menu_branch; simpl; rewrite Hst, Hsp; simpl;
             rewrite <- app_assoc; reflexivity | ].
    split; [ unfold frame, menu_branch, menu_select; simpl; rewrite Hst, Hsp; simpl;
             destruct (keys i K_UP && (num_players v =? 2));
             [ | destruct (keys i K_DOWN && (num_players v =? 1)) ]; reflexivity | ].
    split; [ unfold frame, menu_branch, menu_select; simpl; rewrite Hst, Hsp; simpl;
             destruct (keys i K_UP && (num_players v =? 2));
             [ | destruct (keys i K_DOWN && (num_players v =? 1)) ]; reflexivity | ].
    split; [exact Hnext|].
    intros Hrun Hq rest. cbn [loop]. rewrite Hrun.
    fold v'. rewrite <- Hnext.
    assert (Hrun' : running v' = true).
    { subst v'. rewrite frame_running, Hrun, Hq. reflexivity. }
    rewrite Hrun'. reflexivity.
  - subst v'. unfold frame, game_over_branch. simpl. rewrite Hst, Hsp. simpl. auto.
Qed.

(** C10: a GameOver frame never calls [game.update()]; over any stretch of
    frames that all start in GameOver the game is the one the stretch
    started with, and a frame of it changes the game only by the rising
    edge that replaces it with a new one and goes to Menu. *)
Theorem game_over_keeps_game (ins : list Input) (v : Vars) :
  Forall (fun r => state (fr_pre r) = GAME_OVER) (loop ins v) ->
  Forall (fun r =>
            game (fr_pre r) = game v
            /\ Game_bats (game (fr_pre r)) = Game_bats (game v)
            /\ filter is_update (fr_effects r) = []
            /\ (space_pressed (fr_input r) (fr_pre r) = false ->
                state (fr_post r) = GAME_OVER /\ game (fr_post r) = game v)
            /\ (space_pressed (fr_input r) (fr_pre r) = true ->
                state (fr_post r) = MENU
                /\ game (fr_post r) = Game_init (world (fr_input r)) (None, None)))
    (loop ins v).
Proof.
  revert v. induction ins as [|i rest IH]; intros v Hall; cbn [loop] in *.
  - constructor.
  - destruct (running v); [ | constructor ].
    apply Forall_cons_iff in Hall as [Hst Hrest]. cbn [fr_pre] in Hst.
    assert (Hframe :
              filter is_update (snd (frame i v)) = []
              /\ (space_pressed i v = false ->
                  state (fst (frame i v)) = GAME_OVER /\ game (fst (frame i v)) = game v)
              /\ (space_pressed i v = true ->
                  state (fst (frame i v)) = MENU
                  /\ game (fst (frame i v)) = Game_init (world i) (None, None))).
    { unfold frame, game_over_branch. simpl. rewrite Hst. simpl.
      destruct (space_pressed i v); simpl; repeat split; auto; discriminate. }
    destruct Hframe as (Hupd & Hstay & Hleave).
    constructor.
    + cbn [fr_pre fr_post fr_input fr_effects]. auto.
    + remember (fst (frame i v)) as v1 eqn:Hv1.
      destruct rest as [|i2 rest2]; [constructor|].
      destruct (running v1) eqn:Hrun1; [ | cbn [loop]; rewrite Hrun1; constructor ].
      assert (Hpre2 : state v1 = GAME_OVER).
      { cbn [loop] in Hrest. rewrite Hrun1 in Hrest.
        apply Forall_cons_iff in Hrest as [H2 _]. exact H2. }
      assert (Hg : game v1 = game v).
      { destruct (space_pressed i v) eqn:Hsp.
        - destruct (Hleave eq_refl) as [Hm _]. congruence.
        - apply Hstay; reflexivity. }
      rewrite <- Hg. apply IH. exact Hrest.
Qed.

(** ** Further properties of the loop *)

(** A property of the variables that every frame keeps holds before and after
    every frame the loop executes, and when the loop stops. *)
Lemma loop_invariant (P : Vars -> Prop) :
  (forall (i : Input) (v : Vars), P v -> P (fst (frame i v))) ->
  forall (ins : list Input) (v : Vars),
    P v ->
    Forall (fun r => P (fr_pre r) /\ P (fr_post r)) (loop ins v)
    /\ P (run ins v).
Proof.
  intros Hstep. induction ins as [|i rest IH]; intros v Hv; cbn [loop run].
  - split; [constructor | exact Hv].
  - destruct (running v); [ | split; [constructor | exact Hv] ].
    destruct (IH _ (Hstep i v Hv)) as [HF HR].
    split; [ | exact HR ].
    constructor; [ | exact HF ].
    cbn [fr_pre fr_post]. split; [ exact Hv | apply Hstep; exact Hv ].
Qed.

Lemma frame_state_cases (i : Input) (v : Vars) :
  state (fst (frame i v)) =
    match state v with
    | MENU => if space_pressed i v then PLAY else MENU
    | PLAY => if max_score (Game_update (world i) (game v)) >? 9
              then GAME_OVER else PLAY
    | GAME_OVER => if space_pressed i v then MENU else GAME_OVER
    end.
Proof.
  unfold frame, menu_branch, play_branch, game_over_branch. simpl.
  destruct (state v) eqn:Hst; simpl; destruct (space_pressed i v); simpl;
    trivial.
Qed.

Lemma frame_game_cases (i : Input) (v : Vars) :
  game (fst (frame i v)) =
    match state v with
    | MENU => if space_pressed i v
              then Game_init (world i) (controls (fst (frame i v)))
              else Game_update (world i) (game v)
    | PLAY => Game_update (world i) (game v)
    | GAME_OVER => if space_pressed i v
                   then Game_init (world i) (None, None) else game v
    end.
Proof.
  unfold frame, menu_branch, play_branch, game_over_branch. simpl.
  destruct (state v) eqn:Hst; simpl; destruct (space_pressed i v); simpl;
    trivial.
Qed.

Lemma run_quit_iff (ins : list Input) :
  forall v : Vars,
    running v = true ->
    (running (run ins v) = false <-> existsb has_quit ins = true).
Proof.
  induction ins as [|i rest IH]; intros v Hrun; cbn [run existsb].
  - rewrite Hrun. split; discriminate.
  - rewrite Hrun. destruct (has_quit i) eqn:Hq; cbn [orb].
    + assert (Hstop : running (fst (frame i v)) = false).
      { rewrite frame_running, Hrun, Hq. reflexivity. }
      destruct (run_stopped rest _ Hstop) as [-> _]. tauto.
    + apply IH. rewrite frame_running, Hrun, Hq. reflexivity.
Qed.

Lemma loop_no_quit (ins : list Input) :
  forall v : Vars,
    running v = true ->
    existsb has_quit ins = false ->
    map fr_input (loop ins v) = ins.
Proof.
  induction ins as [|i rest IH]; intros v Hrun Hnq.
  - reflexivity.
  - cbn [existsb] in Hnq. apply orb_false_iff in Hnq as [Hq Hrest].
    cbn [loop]. rewrite Hrun. cbn [map fr_input]. f_equal.
    apply IH; trivial. rewrite frame_running, Hrun, Hq. reflexivity.
Qed.

(** X1: the loop stops for no other reason than the window-close event.
    From variables with [running] true, [running] is false after the inputs
    exactly when one of them polls QUIT; when none does, every input is
    executed as a frame, and [main] exits (with status 0) exactly when some
    frame polls QUIT. *)
Theorem loop_stops_only_on_close (v : Vars) (ins : list Input) :
  running v = true ->
  (running (run ins v) = false <-> existsb has_quit ins = true)
  /\ (existsb has_quit ins = false -> map fr_input (loop ins v) = ins)
  /\ (forall w0 : Env, v = init w0 ->
        (main w0 ins = Exited 0 <-> existsb has_quit ins = true)).
Proof.
  intro Hrun.
  pose proof (run_quit_iff ins v Hrun) as Hiff.
  split; [exact Hiff|]. split.
  - apply loop_no_quit. exact Hrun.
  - intros w0 Hv. unfold main, finish. rewrite <- Hv.
    destruct (running (run ins v)) eqn:E.
    + split; [discriminate|]. intro H. apply Hiff in H. discriminate.
    + split; [intros _; apply Hiff; reflexivity | reflexivity].
Qed.

(** X2: one frame moves the state only along Menu -> Play -> GameOver ->
    Menu or leaves it: it never goes from Menu to GameOver, from Play to
    Menu, or from GameOver to Play; the same holds for every frame the loop
    executes. *)
Theorem frame_successor_states (i : Input) (v : Vars) (ins : list Input) :
  successor (state v) (state (fst (frame i v))) = true
  /\ Forall (fun r => successor (state (fr_pre r)) (state (fr_post r)) = true)
       (loop ins v).
Proof.
  assert (Hstep : forall (j : Input) (u : Vars),
             successor (state u) (state (fst (frame j u))) = true).
  { intros j u. rewrite frame_state_cases.
    destruct (state u); simpl;
      try destruct (space_pressed j u);
      try destruct (max_score (Game_update (world j) (game u)) >? 9);
      reflexivity. }
  split; [apply Hstep|].
  revert v. induction ins as [|j rest IH]; intro v; cbn [loop].
  - constructor.
  - destruct (running v); constructor; [ apply Hstep | apply IH ].
Qed.

(** X3: whenever the program, started by [main], is at the top of a frame in
    GameOver, the larger score of its game is greater than 9. *)
Theorem game_over_has_winner (w0 : Env) (ins : list Input) :
  Forall (fun r => state (fr_pre r) = GAME_OVER ->
                   max_score (game (fr_pre r)) > 9)
    (loop ins (init w0))
  /\ (state (run ins (init w0)) = GAME_OVER ->
      max_score (game (run ins (init w0))) > 9).
Proof.
  set (P := fun v : Vars => state v = GAME_OVER -> max_score (game v) > 9).
  assert (Hstep : forall (i : Input) (v : Vars), P v -> P (fst (frame i v))).
  { intros i v Hv. unfold P in *.
    rewrite frame_state_cases, frame_game_cases.
    destruct (state v) eqn:Hst.
    - destruct (space_pressed i v); discriminate.
    - destruct (Z.gtb_spec (max_score (Game_update (world i) (game v))) 9);
        [ intros _; lia | discriminate ].
    - destruct (space_pressed i v); [discriminate | intros _; auto]. }
  assert (H0 : P (init w0)) by (unfold P; discriminate).
  destruct (loop_invariant P Hstep ins (init w0) H0) as [HF HR].
  split; [ | exact HR ].
  eapply Forall_impl; [ | exact HF ]. intros r [Hpre _]. exact Hpre.
Qed.

(** X4: first to ten.  If a new game has no score above 9 and an update
    raises the larger score by at most one, then at the top of every frame
    the larger score is at most 9 in Play and exactly 10 in GameOver. *)
Theorem first_to_ten (w0 : Env) (ins : list Input) :
  (forall (w : Env) (c : Controls), max_score (Game_init w c) <= 9) ->
  (forall (w : Env) (g : Game), max_score (Game_update w g) <= max_score g + 1) ->
  Forall (fun r => score_inv (fr_pre r)) (loop ins (init w0))
  /\ score_inv (run ins (init w0)).
Proof.
  intros Hfresh Hup.
  assert (Hstep : forall (i : Input) (v : Vars),
             score_inv v -> score_inv (fst (frame i v))).
  { intros i v [Hplay Hover]. unfold score_inv.
    rewrite frame_state_cases, frame_game_cases.
    destruct (state v) eqn:Hst.
    - unfold frame, menu_branch. simpl. rewrite Hst. simpl.
      destruct (space_pressed i v); simpl;
        split; intro; try discriminate. apply Hfresh.
    - specialize (Hplay eq_refl). specialize (Hup (world i) (game v)).
      destruct (Z.gtb_spec (max_score (Game_update (world i) (game v))) 9);
        split; intro; try discriminate; lia.
    - destruct (space_pressed i v); split; intro; try discriminate; auto. }
  assert (H0 : score_inv (init w0)) by (split; discriminate).
  destruct (loop_invariant score_inv Hstep ins (init w0) H0) as [HF HR].
  split; [ | exact HR ].
  eapply Forall_impl; [ | exact HF ]. intros r [Hpre _]. exact Hpre.
Qed.

(** X5: the variables [controls] and [game] never come apart.  At the top of
    every frame the game is one constructed from the current [controls] and
    only updated since; [controls] is (None, None) in Menu, and in Play and
    GameOver it is player 1's function with player 2's function exactly when
    the player count is 2. *)
Theorem game_built_from_controls (w0 : Env) (ins : list Input) :
  Forall (fun r => controls_inv (fr_pre r)) (loop ins (init w0))
  /\ controls_inv (run ins (init w0)).
Proof.
  assert (Hstep : forall (i : Input) (v : Vars),
             controls_inv v -> controls_inv (fst (frame i v))).
  { intros i v (Hb & Hm & Hp). unfold controls_inv.
    unfold frame, menu_branch, play_branch, game_over_branch. simpl.
    destruct (state v) eqn:Hst; simpl.
    - destruct (space_pressed i v); simpl.
      + split; [ apply built_new | ].
        split; [ discriminate | reflexivity ].
      + split; [ apply built_update; exact Hb | ].
        split; [ intros _; apply Hm; reflexivity | intro H; now elim H ].
    - split; [ apply built_update; exact Hb | ].
      split.
      + destruct (max_score (Game_update (world i) (game v)) >? 9); discriminate.
      + intros _. apply Hp. discriminate.
    - destruct (space_pressed i v); simpl.
      + split; [ apply built_new | ].
        split; [ reflexivity | intro H; now elim H ].
      + split; [ exact Hb | ].
        split; [ intro H; congruence | intros _; apply Hp; congruence ]. }
  assert (H0 : controls_inv (init w0)).
  { split; [ apply built_new | ].
    split; [ reflexivity | intro H; now elim H ]. }
  destruct (loop_invariant controls_inv Hstep ins (init w0) H0) as [HF HR].
  split; [ | exact HR ].
  eapply Forall_impl; [ | exact HF ]. intros r [Hpre _]. exact Hpre.
Qed.

(** X6: one press of SPACE makes one transition.  The frame after a frame
    with a rising edge has none, whatever the keys; so after GameOver goes to
    Menu the next frame stays in Menu and updates the background game, and
    a Menu frame that follows directly cannot start the game. *)
Theorem one_press_one_transition (i i' : Input) (v : Vars) :
  space_pressed i v = true ->
  let v' := fst (frame i v) in
  space_pressed i' v' = false
  /\ (state v = GAME_OVER ->
      state (fst (frame i' v')) = MENU
      /\ game (fst (frame i' v')) = Game_update (world i') (game v')
      /\ filter is_new (snd (frame i' v')) = []).
Proof.
  intros Hsp v'.
  assert (Hno : space_pressed i' v' = false).
  { unfold space_pressed in *. subst v'. rewrite frame_space_down.
    apply andb_true_iff in Hsp as [-> _]. apply andb_false_r. }
  split; [exact Hno|].
  intro Hst.
  assert (Hm : state v' = MENU).
  { subst v'. rewrite frame_state_cases, Hst, Hsp. reflexivity. }
  rewrite frame_state_cases, frame_game_cases, Hm, Hno.
  repeat split.
  unfold frame, menu_branch, menu_select. simpl. rewrite Hm, Hno. simpl.
  destruct (keys i' K_UP && (num_players v' =? 2));
    [ | destruct (keys i' K_DOWN && (num_players v' =? 1)) ]; reflexivity.
Qed.

(** X7: the events of a frame decide [running] and nothing else: with any
    other event queue the frame makes the same calls and leaves the same
    state, player count, controls, game and [space_down].  So the frame that
    polls the window-close event still runs its state logic and renders. *)
Theorem events_only_stop_loop (evs : list EventType) (i : Input) (v : Vars) :
  snd (frame (with_events evs i) v) = snd (frame i v)
  /\ state (fst (frame (with_events evs i) v)) = state (fst (frame i v))
  /\ num_players (fst (frame (with_events evs i) v)) = num_players (fst (frame i v))
  /\ controls (fst (frame (with_events evs i) v)) = controls (fst (frame i v))
  /\ game (fst (frame (with_events evs i) v)) = game (fst (frame i v))
  /\ space_down (fst (frame (with_events evs i) v)) = space_down (fst (frame i v))
  /\ running (fst (frame (with_events evs i) v))
     = running v && negb (existsb is_quit evs).
Proof.
  rewrite frame_running.
  unfold frame, menu_branch, play_branch, game_over_branch, with_events,
    space_pressed, has_quit. simpl.
  destruct (state v) eqn:Hst; simpl;
    destruct (keys i K_SPACE && negb (space_down v)); simpl;
    repeat split; reflexivity.
Qed.

(** X8: every frame paints exactly one screen and presents it once.  The
    calls end with [display.flip()] and [clock.tick(FPS)], each made once;
    the screen painted is the one of the state the frame started in: the
    menu with the player count as this frame leaves it, the game as this
    frame's update leaves it, or the game-over screen. *)
Theorem frame_renders_once (i : Input) (v : Vars) :
  let v' := fst (frame i v) in
  (exists body : list Effect,
      snd (frame i v) = body ++ [DisplayFlip; ClockTick])
  /\ filter is_flip (snd (frame i v)) = [DisplayFlip]
  /\ filter is_tick (snd (frame i v)) = [ClockTick]
  /\ filter is_render (snd (frame i v)) =
       [match state v with
        | MENU => DrawMenu (num_players v')
        | PLAY => GameDraw (game v')
        | GAME_OVER => DrawGameOver
        end].
Proof.
  intro v'. subst v'.
  split; [ unfold frame; eexists; reflexivity | ].
  unfold frame, menu_branch, play_branch, game_over_branch, menu_select. simpl.
  destruct (state v) eqn:Hst; simpl;
    destruct (space_pressed i v); simpl;
    try (destruct (keys i K_UP && (num_players v =? 2));
         [ | destruct (keys i K_DOWN && (num_players v =? 1)) ]);
    simpl; repeat split; reflexivity.
Qed.

(** X9: a menu key held down acts once.  Over two Menu frames without SPACE
    and with the same UP and DOWN state, not both down, the second frame
    leaves the player count as the first left it and plays no cue. *)
Theorem held_key_acts_once (i i' : Input) (v : Vars) :
  state v = MENU ->
  keys i K_SPACE = false ->
  keys i' K_SPACE = false ->
  keys i' K_UP = keys i K_UP ->
  keys i' K_DOWN = keys i K_DOWN ->
  keys i K_UP && keys i K_DOWN = false ->
  let v' := fst (frame i v) in
  state v' = MENU
  /\ num_players (fst (frame i' v')) = num_players v'
  /\ filter is_sfx (snd (frame i' v')) = [].
Proof.
  intros Hst Hs Hs' Hup Hdn Hnb v'.
  assert (Hm : state v' = MENU).
  { subst v'. rewrite frame_state_cases, Hst. unfold space_pressed.
    rewrite Hs. reflexivity. }
  split; [exact Hm|].
  assert (Hn : num_players v' = fst (menu_select (keys i) (num_players v))).
  { subst v'. unfold frame, menu_branch, space_pressed. simpl.
    rewrite Hst, Hs. reflexivity. }
  clearbody v'. unfold frame, menu_branch, space_pressed. simpl.
  rewrite Hm, Hs'. simpl. rewrite Hn. unfold menu_select. rewrite Hup, Hdn.
  destruct (keys i K_UP), (keys i K_DOWN); try discriminate; simpl;
    destruct (num_players v =? 2) eqn:E2, (num_players v =? 1) eqn:E1;
    simpl; rewrite ?E2, ?E1; simpl; split; reflexivity.
Qed.

(** X10: with UP and DOWN both down, a Menu frame flips the player count
    between 1 and 2 and plays a cue, every frame: "up" when leaving 2,
    "down" when leaving 1. *)
Theorem both_keys_flip_count (i : Input) (v : Vars) :
  state v = MENU ->
  keys i K_UP = true ->
  keys i K_DOWN = true ->
  num_players v = 1 \/ num_players v = 2 ->
  num_players (fst (frame i v)) = 3 - num_players v
  /\ filter is_sfx (snd (frame i v)) =
       [SfxPlay (if num_players v =? 2 then "up" else "down")].
Proof.
  intros Hst Hup Hdn Hn.
  unfold frame, menu_branch, menu_select. simpl. rewrite Hst, Hup, Hdn. simpl.
  destruct Hn as [-> | ->]; simpl; destruct (space_pressed i v); simpl;
    split; reflexivity.
Qed.

(** X11: [main] plays a cue only for a change of the menu selection.  A frame
    plays at most one cue; a frame that plays one started in Menu and changed
    the player count; and a Menu frame that changes the player count plays
    one.  (The reset of the count on leaving GameOver is silent.) *)
Theorem cue_iff_selection_changed (i : Input) (v : Vars) :
  (List.length (filter is_sfx (snd (frame i v))) <= 1)%nat
  /\ (filter is_sfx (snd (frame i v)) <> [] ->
      state v = MENU /\ num_players (fst (frame i v)) <> num_players v)
  /\ (state v = MENU ->
      num_players (fst (frame i v)) <> num_players v ->
      filter is_sfx (snd (frame i v)) <> [])
  /\ (state v <> MENU -> filter is_sfx (snd (frame i v)) = []).
Proof.
  unfold frame, menu_branch, play_branch, game_over_branch, menu_select. simpl.
  destruct (state v) eqn:Hst; simpl;
    destruct (space_pressed i v); simpl;
    try (destruct (keys i K_UP);
         destruct (Z.eqb_spec (num_players v) 2);
         destruct (keys i K_DOWN);
         destruct (Z.eqb_spec (num_players v) 1));
    simpl; repeat split; intros;
    try reflexivity; try lia; try congruence; try discriminate.
Qed.

(** X12: a Game is constructed only on a SPACE rising edge outside Play.  In
    a frame that starts in Play, or has no rising edge, no Game is
    constructed and the game is the old object, updated or untouched; on a
    rising edge in Menu or GameOver exactly one is constructed, from the
    controls the frame leaves, and it is the game afterwards. *)
Theorem game_constructed_only_on_edge (i : Input) (v : Vars) :
  let v' := fst (frame i v) in
  (state v = PLAY \/ space_pressed i v = false ->
   filter is_new (snd (frame i v)) = []
   /\ (game v' = game v \/ game v' = Game_update (world i) (game v)))
  /\ (state v <> PLAY -> space_pressed i v = true ->
      filter is_new (snd (frame i v)) = [GameNew (controls v')]
      /\ game v' = Game_init (world i) (controls v')).
Proof.
  intro v'. subst v'.
  unfold frame, menu_branch, play_branch, game_over_branch, menu_select. simpl.
  destruct (state v) eqn:Hst; simpl;
    destruct (space_pressed i v); simpl;
    try (destruct (keys i K_UP && (num_players v =? 2));
         [ | destruct (keys i K_DOWN && (num_players v =? 1)) ]);
    simpl; split; intros;
    try (split; [ reflexivity | auto ]); try congruence;
    try (destruct H; discriminate).
Qed.

End Loop.

Arguments mkInput {Env} _ _ _.
Arguments mkVars {Game} _ _ _ _ _ _.
Arguments frame {Game Env} _ _ _ _ _.
Arguments loop {Game Env} _ _ _ _ _.
Arguments run {Game Env} _ _ _ _ _.
Arguments finish {Game} _.
Arguments space_flags {Game Env} _ _ _ _ _.
Arguments Exited {Game} _.
Arguments state {Game} _.
Arguments num_players {Game} _.
Arguments controls {Game} _.
Arguments game {Game} _.
Arguments fr_pre {Game Env} _.
Arguments fr_effects {Game Env} _.
Arguments is_update {Game} _.
Arguments count_updates {Game} _.
Arguments is_sfx {Game} _.
Arguments SfxPlay {Game} _.
Arguments GameNew {Game} _.
Arguments GameUpdate {Game} _.
Arguments GameDraw {Game} _.
Arguments DrawMenu {Game} _.
Arguments DrawGameOver {Game}.
Arguments DisplayFlip {Game}.
Arguments ClockTick {Game}.

(** ** The theorems at concrete frames of the scoreboard game *)

(** At 9-3 in Play, a point for the left bat ends the game. *)
Lemma play_frame_game_over_witness :
  state (fst (frame scoreboard_init scoreboard_update scoreboard_bats
                (mkInput [] no_key PointLeft)
                (mkVars PLAY 1 (Some p1_controls, None)
                   (mkScoreboard 9 3 120 (Some p1_controls, None)) false true)))
  = GAME_OVER
  /\ snd (frame scoreboard_init scoreboard_update scoreboard_bats
            (mkInput [] no_key PointLeft)
            (mkVars PLAY 1 (Some p1_controls, None)
               (mkScoreboard 9 3 120 (Some p1_controls, None)) false true))
     = [GameUpdate (mkScoreboard 9 3 120 (Some p1_controls, None));
        GameDraw (mkScoreboard 10 3 121 (Some p1_controls, None));
        DisplayFlip; ClockTick].
Proof.
  pose proof (play_frame_game_over Scoreboard Rally
                scoreboard_init scoreboard_update scoreboard_bats
                (mkInput [] no_key PointLeft)
                (mkVars PLAY 1 (Some p1_controls, None)
                   (mkScoreboard 9 3 120 (Some p1_controls, None)) false true)
                eq_refl) as H.
  cbv zeta in H. destruct H as (_ & Heff & _ & Hiff & _).
  split.
  - apply Hiff. vm_compute. reflexivity.
  - exact Heff.
Defined.

(** SPACE down, down, down, up, down from the start of the program. *)
Lemma space_rising_edge_witness :
  space_flags scoreboard_init scoreboard_update scoreboard_bats
    [mkInput [] (only_key K_SPACE) NoPoint;
     mkInput [] (only_key K_SPACE) NoPoint;
     mkInput [] (only_key K_SPACE) NoPoint;
     mkInput [] no_key NoPoint;
     mkInput [] (only_key K_SPACE) NoPoint]
    (init Scoreboard Rally scoreboard_init NoPoint)
  = [true; false; false; false; true].
Proof.
  apply (proj2 (space_rising_edge Scoreboard Rally
                  scoreboard_init scoreboard_update scoreboard_bats NoPoint _));
    reflexivity.
Defined.

(** With two players selected, a fresh press of SPACE in the menu starts a
    game with both control functions. *)
Lemma menu_to_play_witness :
  state (fst (frame scoreboard_init scoreboard_update scoreboard_bats
                (mkInput [] (only_key K_SPACE) NoPoint)
                (mkVars MENU 2 (None, None)
                   (mkScoreboard 0 0 40 (None, None)) false true)))
  = PLAY
  /\ controls (fst (frame scoreboard_init scoreboard_update scoreboard_bats
                      (mkInput [] (only_key K_SPACE) NoPoint)
                      (mkVars MENU 2 (None, None)
                         (mkScoreboard 0 0 40 (None, None)) false true)))
     = (Some p1_controls, Some p2_controls).
Proof.
  pose proof (menu_to_play Scoreboard Rally
                scoreboard_init scoreboard_update scoreboard_bats
                (mkInput [] (only_key K_SPACE) NoPoint)
                (mkVars MENU 2 (None, None)
                   (mkScoreboard 0 0 40 (None, None)) false true)
                eq_refl) as H.
  cbv zeta in H. destruct H as (Hiff & _ & Hon).
  split.
  - apply Hiff. split; reflexivity.
  - destruct (Hon eq_refl) as (Hc & _).
    rewrite Hc. reflexivity.
Defined.

(** After a 10-3 game with two players, a fresh press of SPACE on the
    game-over screen goes back to the menu with one player and a 0-0 game. *)
Lemma game_over_to_menu_witness :
  state (fst (frame scoreboard_init scoreboard_update scoreboard_bats
                (mkInput [] (only_key K_SPACE) NoPoint)
                (mkVars GAME_OVER 2 (Some p1_controls, Some p2_controls)
                   (mkScoreboard 10 3 900 (Some p1_controls, Some p2_controls))
                   false true)))
  = MENU
  /\ num_players (fst (frame scoreboard_init scoreboard_update scoreboard_bats
                         (mkInput [] (only_key K_SPACE) NoPoint)
                         (mkVars GAME_OVER 2 (Some p1_controls, Some p2_controls)
                            (mkScoreboard 10 3 900 (Some p1_controls, Some p2_controls))
                            false true)))
     = 1
  /\ scoreboard_bats
       (game (fst (frame scoreboard_init scoreboard_update scoreboard_bats
                     (mkInput [] (only_key K_SPACE) NoPoint)
                     (mkVars GAME_OVER 2 (Some p1_controls, Some p2_controls)
                        (mkScoreboard 10 3 900 (Some p1_controls, Some p2_controls))
                        false true))))
     = (mkBat 0, mkBat 0).
Proof.
  pose proof (game_over_to_menu Scoreboard Rally
                scoreboard_init scoreboard_update scoreboard_bats
                (mkInput [] (only_key K_SPACE) NoPoint)
                (mkVars GAME_OVER 2 (Some p1_controls, Some p2_controls)
                   (mkScoreboard 10 3 900 (Some p1_controls, Some p2_controls))
                   false true)
                (fun _ _ => eq_refl) eq_refl) as H.
  cbv zeta in H. destruct H as (Hiff & Hon & _).
  destruct (Hon eq_refl) as (Hn & _ & Hg & _).
  split; [ apply Hiff; split; reflexivity | ].
  split; [ exact Hn | ].
  rewrite Hg. reflexivity.
Defined.

(** UP in the menu with two players selected. *)
Lemma menu_player_count_witness :
  num_players (fst (frame scoreboard_init scoreboard_update scoreboard_bats
                      (mkInput [] (only_key K_UP) NoPoint)
                      (mkVars MENU 2 (None, None)
                         (mkScoreboard 0 0 7 (None, None)) false true)))
  = 1
  /\ filter is_sfx
       (snd (frame scoreboard_init scoreboard_update scoreboard_bats
               (mkInput [] (only_key K_UP) NoPoint)
               (mkVars MENU 2 (None, None)
                  (mkScoreboard 0 0 7 (None, None)) false true)))
     = [SfxPlay "up"].
Proof.
  pose proof (menu_player_count Scoreboard Rally
                scoreboard_init scoreboard_update scoreboard_bats
                (mkInput [] (only_key K_UP) NoPoint)
                (mkVars MENU 2 (None, None)
                   (mkScoreboard 0 0 7 (None, None)) false true)
                eq_refl) as H.
  cbv zeta in H. destruct H as (Hup & _).
  apply Hup. split; reflexivity.
Defined.

(** A menu frame with SPACE held from the frame before. *)
Lemma menu_background_update_witness :
  count_updates
    (snd (frame scoreboard_init scoreboard_update scoreboard_bats
            (mkInput [] (only_key K_SPACE) PointRight)
            (mkVars MENU 1 (None, None)
               (mkScoreboard 2 4 77 (None, None)) true true)))
  = 1%nat
  /\ game (fst (frame scoreboard_init scoreboard_update scoreboard_bats
                 (mkInput [] (only_key K_SPACE) PointRight)
                 (mkVars MENU 1 (None, None)
                    (mkScoreboard 2 4 77 (None, None)) true true)))
     = scoreboard_update PointRight (mkScoreboard 2 4 77 (None, None)).
Proof.
  pose proof (menu_background_update Scoreboard Rally
                scoreboard_init scoreboard_update scoreboard_bats
                (mkInput [] (only_key K_SPACE) PointRight)
                (mkVars MENU 1 (None, None)
                   (mkScoreboard 2 4 77 (None, None)) true true)
                eq_refl eq_refl) as H.
  cbv zeta in H. destruct H as (_ & Hg & Hc & _).
  split; [ exact Hc | exact Hg ].
Defined.

(** Two frames, then the window is closed during Play; a fourth input is
    never read. *)
Lemma window_close_ends_loop_witness :
  List.length
    (loop scoreboard_init scoreboard_update scoreboard_bats
       ([mkInput [] no_key NoPoint; mkInput [OTHER_EVENT 768] no_key PointLeft]
          ++ mkInput [OTHER_EVENT 1024; QUIT] no_key NoPoint
          :: [mkInput [] (only_key K_SPACE) NoPoint])
       (mkVars PLAY 2 (Some p1_controls, Some p2_controls)
          (mkScoreboard 1 0 30 (Some p1_controls, Some p2_controls)) false true))
  = 3%nat
  /\ finish
       (run scoreboard_init scoreboard_update scoreboard_bats
          ([mkInput [] no_key NoPoint; mkInput [OTHER_EVENT 768] no_key PointLeft]
             ++ mkInput [OTHER_EVENT 1024; QUIT] no_key NoPoint
             :: [mkInput [] (only_key K_SPACE) NoPoint])
          (mkVars PLAY 2 (Some p1_controls, Some p2_controls)
             (mkScoreboard 1 0 30 (Some p1_controls, Some p2_controls)) false true))
     = Exited 0.
Proof.
  pose proof (window_close_ends_loop Scoreboard Rally
                scoreboard_init scoreboard_update scoreboard_bats
                (mkVars PLAY 2 (Some p1_controls, Some p2_controls)
                   (mkScoreboard 1 0 30 (Some p1_controls, Some p2_controls))
                   false true)
                [mkInput [] no_key NoPoint; mkInput [OTHER_EVENT 768] no_key PointLeft]
                [mkInput [] (only_key K_SPACE) NoPoint]
                (mkInput [OTHER_EVENT 1024; QUIT] no_key NoPoint)
                eq_refl eq_refl eq_refl) as H.
  cbv zeta in H. destruct H as (_ & Hlen & _ & _ & Hfin & _).
  split; [ exact Hlen | exact Hfin ].
Defined.

(** Starting a game from the menu, then the first frame of play. *)
Lemma transition_frame_rendering_witness :
  snd (frame scoreboard_init scoreboard_update scoreboard_bats
         (mkInput [] (only_key K_SPACE) NoPoint)
         (mkVars MENU 1 (None, None) (mkScoreboard 0 0 12 (None, None)) false true))
  = [GameNew (Some p1_controls, None); DrawMenu 1; DisplayFlip; ClockTick]
  /\ snd (frame scoreboard_init scoreboard_update scoreboard_bats
            (mkInput [] (only_key K_SPACE) PointRight)
            (fst (frame scoreboard_init scoreboard_update scoreboard_bats
                    (mkInput [] (only_key K_SPACE) NoPoint)
                    (mkVars MENU 1 (None, None)
                       (mkScoreboard 0 0 12 (None, None)) false true))))
     = [GameUpdate (mkScoreboard 0 0 0 (Some p1_controls, None));
        GameDraw (mkScoreboard 0 1 1 (Some p1_controls, None));
        DisplayFlip; ClockTick].
Proof.
  pose proof (transition_frame_rendering Scoreboard Rally
                scoreboard_init scoreboard_update scoreboard_bats
                (mkInput [] (only_key K_SPACE) NoPoint)
                (mkInput [] (only_key K_SPACE) PointRight)
                (mkVars MENU 1 (None, None) (mkScoreboard 0 0 12 (None, None)) false true)
                eq_refl) as H.
  cbv zeta in H. destruct H as (Hmenu & _).
  destruct (Hmenu eq_refl) as (_ & _ & Heff & _ & _ & Hnext & _).
  split; [ exact Heff | exact Hnext ].
Defined.

(** Three frames on the game-over screen, SPACE pressed in the third. *)
Lemma game_over_keeps_game_witness :
  Forall (fun r => game (fr_pre r) = mkScoreboard 10 3 900 (Some p1_controls, None)
                   /\ filter is_update (fr_effects r) = [])
    (loop scoreboard_init scoreboard_update scoreboard_bats
       [mkInput [] no_key PointLeft; mkInput [] (only_key K_UP) NoPoint;
        mkInput [] (only_key K_SPACE) NoPoint]
       (mkVars GAME_OVER 1 (Some p1_controls, None)
          (mkScoreboard 10 3 900 (Some p1_controls, None)) false true)).
Proof.
  refine (Forall_impl _ _
            (game_over_keeps_game Scoreboard Rally
               scoreboard_init scoreboard_update scoreboard_bats
               [mkInput [] no_key PointLeft; mkInput [] (only_key K_UP) NoPoint;
                mkInput [] (only_key K_SPACE) NoPoint]
               (mkVars GAME_OVER 1 (Some p1_controls, None)
                  (mkScoreboard 10 3 900 (Some p1_controls, None)) false true)
               _)).
  - intros r (Hg & _ & Hu & _). split; [ exact Hg | exact Hu ].
  - repeat constructor.
Defined.

Arguments is_new {Game} _.
Arguments max_score {Game} _ _.
Arguments score_inv {Game} _ _.
Arguments main {Game Env} _ _ _ _ _.
Arguments init {Game Env} _ _.
Arguments space_pressed {Game Env} _ _.

(** ** The further properties at concrete frames of the scoreboard game *)

(** The window is closed in the second of three frames. *)
Lemma loop_stops_only_on_close_witness :
  main scoreboard_init scoreboard_update scoreboard_bats NoPoint
    [mkInput [] no_key NoPoint;
     mkInput [OTHER_EVENT 769; QUIT] no_key NoPoint;
     mkInput [] (only_key K_SPACE) NoPoint]
  = Exited 0.
Proof.
  pose proof (loop_stops_only_on_close Scoreboard Rally
                scoreboard_init scoreboard_update scoreboard_bats
                (init scoreboard_init NoPoint)
                [mkInput [] no_key NoPoint;
                 mkInput [OTHER_EVENT 769; QUIT] no_key NoPoint;
                 mkInput [] (only_key K_SPACE) NoPoint]
                eq_refl) as H.
  destruct H as (_ & _ & Hmain).
  apply (Hmain NoPoint eq_refl). reflexivity.
Defined.

(** SPACE in the menu, then ten points in a row for the left bat. *)
Lemma game_over_has_winner_witness :
  max_score scoreboard_bats
    (game (run scoreboard_init scoreboard_update scoreboard_bats
             (mkInput [] (only_key K_SPACE) NoPoint
                :: repeat (mkInput [] no_key PointLeft) 10)
             (init scoreboard_init NoPoint)))
  > 9.
Proof.
  apply (proj2 (game_over_has_winner Scoreboard Rally
                  scoreboard_init scoreboard_update scoreboard_bats NoPoint
                  (mkInput [] (only_key K_SPACE) NoPoint
                     :: repeat (mkInput [] no_key PointLeft) 10))).
  reflexivity.
Defined.

(** The same game: the scoreboard starts at 0-0 and gains at most a point a
    tick, and the game ends at exactly ten. *)
Lemma first_to_ten_witness :
  score_inv scoreboard_bats
    (run scoreboard_init scoreboard_update scoreboard_bats
       (mkInput [] (only_key K_SPACE) NoPoint
          :: repeat (mkInput [] no_key PointLeft) 10)
       (init scoreboard_init NoPoint)).
Proof.
  apply (first_to_ten Scoreboard Rally
           scoreboard_init scoreboard_update scoreboard_bats NoPoint
           (mkInput [] (only_key K_SPACE) NoPoint
              :: repeat (mkInput [] no_key PointLeft) 10)).
  - intros w c. unfold max_score, scoreboard_bats, scoreboard_init. simpl. lia.
  - intros w g. unfold max_score, scoreboard_bats.
    destruct w; simpl; lia.
Defined.

(** SPACE pressed on the game-over screen and still held in the next frame. *)
Lemma one_press_one_transition_witness :
  space_pressed (mkInput [] (only_key K_SPACE) NoPoint)
    (fst (frame scoreboard_init scoreboard_update scoreboard_bats
            (mkInput [] (only_key K_SPACE) NoPoint)
            (mkVars GAME_OVER 2 (Some p1_controls, Some p2_controls)
               (mkScoreboard 4 10 650 (Some p1_controls, Some p2_controls))
               false true)))
  = false
  /\ state (fst (frame scoreboard_init scoreboard_update scoreboard_bats
                   (mkInput [] (only_key K_SPACE) NoPoint)
                   (fst (frame scoreboard_init scoreboard_update scoreboard_bats
                           (mkInput [] (only_key K_SPACE) NoPoint)
                           (mkVars GAME_OVER 2 (Some p1_controls, Some p2_controls)
                              (mkScoreboard 4 10 650
                                 (Some p1_controls, Some p2_controls))
                              false true)))))
     = MENU.
Proof.
  pose proof (one_press_one_transition Scoreboard Rally
                scoreboard_init scoreboard_update scoreboard_bats
                (mkInput [] (only_key K_SPACE) NoPoint)
                (mkInput [] (only_key K_SPACE) NoPoint)
                (mkVars GAME_OVER 2 (Some p1_controls, Some p2_controls)
                   (mkScoreboard 4 10 650 (Some p1_controls, Some p2_controls))
                   false true)
                eq_refl) as H.
  cbv zeta in H. destruct H as (Hno & Hover).
  destruct (Hover eq_refl) as (Hm & _).
  split; [ exact Hno | exact Hm ].
Defined.

(** UP held for two menu frames with two players selected: the second frame
    is silent. *)
Lemma held_key_acts_once_witness :
  num_players
    (fst (frame scoreboard_init scoreboard_update scoreboard_bats
            (mkInput [] (only_key K_UP) NoPoint)
            (fst (frame scoreboard_init scoreboard_update scoreboard_bats
                    (mkInput [] (only_key K_UP) NoPoint)
                    (mkVars MENU 2 (None, None)
                       (mkScoreboard 0 0 5 (None, None)) false true)))))
  = 1
  /\ filter is_sfx
       (snd (frame scoreboard_init scoreboard_update scoreboard_bats
               (mkInput [] (only_key K_UP) NoPoint)
               (fst (frame scoreboard_init scoreboard_update scoreboard_bats
                       (mkInput [] (only_key K_UP) NoPoint)
                       (mkVars MENU 2 (None, None)
                          (mkScoreboard 0 0 5 (None, None)) false true)))))
     = [].
Proof.
  pose proof (held_key_acts_once Scoreboard Rally
                scoreboard_init scoreboard_update scoreboard_bats
                (mkInput [] (only_key K_UP) NoPoint)
                (mkInput [] (only_key K_UP) NoPoint)
                (mkVars MENU 2 (None, None)
                   (mkScoreboard 0 0 5 (None, None)) false true)
                eq_refl eq_refl eq_refl eq_refl eq_refl eq_refl) as H.
  cbv zeta in H. destruct H as (_ & Hn & Hc).
  split; [ rewrite Hn; reflexivity | exact Hc ].
Defined.

(** UP and DOWN together with one player selected. *)
Lemma both_keys_flip_count_witness :
  num_players
    (fst (frame scoreboard_init scoreboard_update scoreboard_bats
            (mkInput [] (fun k => match k with K_UP | K_DOWN => true | _ => false end)
               NoPoint)
            (mkVars MENU 1 (None, None)
               (mkScoreboard 0 0 5 (None, None)) false true)))
  = 2
  /\ filter is_sfx
       (snd (frame scoreboard_init scoreboard_update scoreboard_bats
               (mkInput [] (fun k => match k with K_UP | K_DOWN => true | _ => false end)
                  NoPoint)
               (mkVars MENU 1 (None, None)
                  (mkScoreboard 0 0 5 (None, None)) false true)))
     = [SfxPlay "down"].
Proof.
  exact (both_keys_flip_count Scoreboard Rally
           scoreboard_init scoreboard_update scoreboard_bats
           (mkInput [] (fun k => match k with K_UP | K_DOWN => true | _ => false end)
              NoPoint)
           (mkVars MENU 1 (None, None)
              (mkScoreboard 0 0 5 (None, None)) false true)
           eq_refl eq_refl eq_refl (or_introl eq_refl)).
Defined.

(** UP with two players selected on the game-over screen: no cue. *)
Lemma cue_iff_selection_changed_witness :
  filter is_sfx
    (snd (frame scoreboard_init scoreboard_update scoreboard_bats
            (mkInput [] (only_key K_UP) NoPoint)
            (mkVars GAME_OVER 2 (Some p1_controls, Some p2_controls)
               (mkScoreboard 10 8 700 (Some p1_controls, Some p2_controls))
               false true)))
  = [].
Proof.
  pose proof (cue_iff_selection_changed Scoreboard Rally
                scoreboard_init scoreboard_update scoreboard_bats
                (mkInput [] (only_key K_UP) NoPoint)
                (mkVars GAME_OVER 2 (Some p1_controls, Some p2_controls)
                   (mkScoreboard 10 8 700 (Some p1_controls, Some p2_controls))
                   false true)) as H.
  destruct H as (_ & _ & _ & Hquiet).
  apply Hquiet. discriminate.
Defined.

(** A fresh press of SPACE during play constructs nothing. *)
Lemma game_constructed_only_on_edge_witness :
  filter is_new
    (snd (frame scoreboard_init scoreboard_update scoreboard_bats
            (mkInput [] (only_key K_SPACE) NoPoint)
            (mkVars PLAY 1 (Some p1_controls, None)
               (mkScoreboard 3 3 200 (Some p1_controls, None)) false true)))
  = [].
Proof.
  pose proof (game_constructed_only_on_edge Scoreboard Rally
                scoreboard_init scoreboard_update scoreboard_bats
                (mkInput [] (only_key K_SPACE) NoPoint)
                (mkVars PLAY 1 (Some p1_controls, None)
                   (mkScoreboard 3 3 200 (Some p1_controls, None)) false true)) as H.
  cbv zeta in H. destruct H as (Hold & _).
  destruct (Hold (or_introl eq_refl)) as (Hnone & _).
  exact Hnone.
Defined.
